(** * winrm-cmd: remote PowerShell over WinRM, relay of its result

    A shallow embedding of [scripts/winrm-cmd.py].  The script is a
    straight-line module body: it checks [sys.argv], imports [winrm],
    builds one [winrm.Session], calls [run_ps] once, copies the two
    captured byte strings to the local streams and leaves through
    [sys.exit].

    The script is embedded in a small monad that records, in program
    order, every call with an effect outside the interpreter, and that
    stops at the first exception ([sys.exit] raises [SystemExit], as in
    Python).  The [winrm] package is not part of the repository: the
    script is a function of an environment that says what [import winrm]
    gives and how the package answers.  What the parent process sees of a
    run (the exit status, the bytes on the two descriptors and their
    order) is computed from the trace of the calls. *)

From Stdlib Require Import Strings.String Strings.Ascii Strings.Byte List ZArith Bool Arith Lia.
From ExtLib Require Import Structures.Monad Structures.MonadExc.
Import ListNotations.
Import MonadNotation.

Local Open Scope string_scope.
Local Open Scope monad_scope.

(** ** The slice of the Python runtime the script touches *)

(** A [bytes] object. *)
Definition bytes : Type := list byte.

(** Truth value of a [bytes] object: false exactly for [b''] . *)
Definition truthy (b : bytes) : bool :=
  match b with
  | [] => false
  | _ :: _ => true
  end.

(** The exception classes that matter to the control flow.  The classes of
    the [winrm] package and of what it builds on ([requests], [socket])
    are told apart by their qualified name only. *)
Inductive ExcClass : Type :=
| ImportError
| ModuleNotFoundError
| IndexError
| ForeignError (qualname : string).

Record Exception : Type := mkException {
  exc_class : ExcClass;
  exc_msg : string
}.

(** [isinstance(e, ImportError)]: [ModuleNotFoundError] derives from
    [ImportError]. *)
Definition isinstance_ImportError (e : Exception) : bool :=
  match exc_class e with
  | ImportError | ModuleNotFoundError => true
  | IndexError | ForeignError _ => false
  end.

(** What unwinds the module body: [sys.exit(code)] raises [SystemExit];
    anything else is an ordinary exception. *)
Inductive BaseException : Type :=
| SystemExit (code : Z)
| Raised (e : Exception).

(** ** The [winrm] package, as far as the script uses it *)

(** [winrm.Response]: the attributes the script reads. *)
Record Response : Type := mkResponse {
  std_out : bytes;
  std_err : bytes;
  status_code : Z
}.

(** The arguments of the [winrm.Session(target, auth=..., transport=...)]
    call; the session object is determined by them. *)
Record Session : Type := mkSession {
  target : string;
  auth : string * string;
  transport : string
}.

(** The package: its constructor may raise, [run_ps] returns a response or
    raises. *)
Record Winrm : Type := mkWinrm {
  Session_init : Session -> option Exception;
  run_ps : Session -> string -> Exception + Response
}.

(** The world of one run: what [import winrm] does. *)
Record Env : Type := mkEnv {
  winrm_module : Exception + Winrm
}.

(** ** Effects *)

Inductive Event : Type :=
| StderrText (text : string)          (* text written through sys.stderr *)
| ImportWinrm                         (* the import statement is run *)
| SessionNew (s : Session)            (* winrm.Session(...) is called *)
| RunPs (s : Session) (script : string)
| StdoutBufferWrite (data : bytes)    (* sys.stdout.buffer.write(data) *)
| StderrBufferWrite (data : bytes).   (* sys.stderr.buffer.write(data) *)

(** A computation: the events so far, and a value or what was raised. *)
Definition Script (A : Type) : Type := list Event * (BaseException + A).

#[export] Instance Monad_Script : Monad Script := {
  ret := fun A (a : A) => ([], inr a);
  bind := fun A B (m : Script A) (k : A -> Script B) =>
    match m with
    | (t, inl e) => (t, inl e)
    | (t, inr a) => let '(t', r) := k a in ((t ++ t')%list, r)
    end
}.

#[export] Instance Exc_Script : MonadExc BaseException Script := {
  raise := fun A (e : BaseException) => ([], inl e);
  catch := fun A (m : Script A) (h : BaseException -> Script A) =>
    match m with
    | (t, inl e) => let '(t', r) := h e in ((t ++ t')%list, r)
    | (t, inr a) => (t, inr a)
    end
}.

Definition emit (ev : Event) : Script unit := ([ev], inr tt).

Definition newline : string := String "010" EmptyString.

(** [print(s, file=sys.stderr)]: the text and the line end. *)
Definition print_stderr (s : string) : Script unit :=
  emit (StderrText (s ++ newline)).

(** [sys.stdout.buffer.write(data)] and [sys.stderr.buffer.write(data)].
    The event records the call: [data] is handed to the stream's
    [BufferedWriter].  When those bytes reach the file descriptor is
    another matter, settled by [emissions] below.  The local streams are
    taken to accept whatever is written to them. *)
Definition stdout_buffer_write (data : bytes) : Script unit :=
  emit (StdoutBufferWrite data).

Definition stderr_buffer_write (data : bytes) : Script unit :=
  emit (StderrBufferWrite data).

Definition sys_exit {A : Type} (code : Z) : Script A :=
  raise (SystemExit code).

(** [l[i]] on a list: [IndexError] out of range. *)
Definition getitem (l : list string) (i : nat) : Script string :=
  match nth_error l i with
  | Some x => ret x
  | None => raise (Raised (mkException IndexError "list index out of range"))
  end.

(** [import winrm]. *)
Definition import_winrm (env : Env) : Script Winrm :=
  emit ImportWinrm ;;
  match winrm_module env with
  | inr m => ret m
  | inl e => raise (Raised e)
  end.

(** [try: body / except ImportError: handler]. *)
Definition try_except_ImportError {A : Type}
    (body handler : Script A) : Script A :=
  catch body (fun b =>
    match b with
    | Raised e => if isinstance_ImportError e then handler else raise b
    | SystemExit _ => raise b
    end).

(** [winrm.Session(target, auth=auth, transport=transport)]. *)
Definition winrm_Session (lib : Winrm) (tgt : string) (au : string * string)
    (tr : string) : Script Session :=
  let s := mkSession tgt au tr in
  emit (SessionNew s) ;;
  match Session_init lib s with
  | None => ret s
  | Some e => raise (Raised e)
  end.

(** [session.run_ps(script)]. *)
Definition session_run_ps (lib : Winrm) (s : Session) (script : string)
    : Script Response :=
  emit (RunPs s script) ;;
  match run_ps lib s script with
  | inr r => ret r
  | inl e => raise (Raised e)
  end.

(** An [if] statement without [else]. *)
Definition when (c : bool) (body : Script unit) : Script unit :=
  if c then body else ret tt.

(** ** The script *)

Definition usage (prog : string) : string :=
  "Usage: " ++ prog ++ " <host> <user> <password> <powershell-command>".

Definition not_installed : string :=
  "pywinrm not installed. Install with: pip install pywinrm".

Definition endpoint (host : string) : string :=
  "http://" ++ host ++ ":5985/wsman".

(** The module body, statement by statement.  Every path ends in an
    exception, so the body has no value to return. *)
Definition winrm_cmd_body (env : Env) (argv : list string) : Script Empty_set :=
  when (negb (List.length argv =? 5)%nat)
    (prog <- getitem argv 0 ;;
     print_stderr (usage prog) ;;
     sys_exit 2) ;;
  host <- getitem argv 1 ;;
  user <- getitem argv 2 ;;
  password <- getitem argv 3 ;;
  command <- getitem argv 4 ;;
  winrm <- try_except_ImportError
             (import_winrm env)
             (print_stderr not_installed ;; sys_exit 2) ;;
  session <- winrm_Session winrm (endpoint host) (user, password) "ntlm" ;;
  result <- session_run_ps winrm session command ;;
  when (truthy (std_out result)) (stdout_buffer_write (std_out result)) ;;
  when (truthy (std_err result)) (stderr_buffer_write (std_err result)) ;;
  sys_exit (status_code result).

(** One run of the process. *)
Record Outcome : Type := mkOutcome {
  trace : list Event;
  ending : BaseException
}.

Definition winrm_cmd (env : Env) (argv : list string) : Outcome :=
  let '(t, r) := winrm_cmd_body env argv in
  mkOutcome t match r with
              | inl e => e
              | inr v => match v with end
              end.

(** ** What the caller of the process observes *)

(** The interpreter converts the argument of [sys.exit] to a C [long]
    (64 bits); for an integer that does not fit the conversion fails and
    -1 is used in its place. *)
Definition fits_c_long (n : Z) : bool :=
  ((- 2 ^ 63 <=? n) && (n <? 2 ^ 63))%Z.

(** Exit status, as the parent process reads it: the low eight bits of the
    code handed to [exit]; an exception that nobody catches makes the
    interpreter print its traceback on the error stream and end with
    status 1. *)
Definition exit_status (b : BaseException) : Z :=
  match b with
  | SystemExit code => if fits_c_long code then code mod 256 else 255
  | Raised _ => 1
  end.

(** The bytes handed to [sys.stdout.buffer]. *)
Definition stdout_bytes (t : list Event) : bytes :=
  flat_map (fun ev => match ev with
                      | StdoutBufferWrite d => d
                      | _ => []
                      end) t.

(** The bytes handed to [sys.stderr.buffer]. *)
Definition stderr_bytes (t : list Event) : bytes :=
  flat_map (fun ev => match ev with
                      | StderrBufferWrite d => d
                      | _ => []
                      end) t.

(** The text the script printed itself. *)
Definition own_text (t : list Event) : list string :=
  flat_map (fun ev => match ev with
                      | StderrText s => [s]
                      | _ => []
                      end) t.

(** The error stream as a whole, piece by piece. *)
Inductive ErrChunk : Type :=
| ErrText (s : string)
| ErrBytes (d : bytes)
| ErrTraceback (e : Exception).

Definition stderr_chunk (ev : Event) : list ErrChunk :=
  match ev with
  | StderrText s => [ErrText s]
  | StderrBufferWrite d => [ErrBytes d]
  | _ => []
  end.

Definition stderr_of (o : Outcome) : list ErrChunk :=
  (flat_map stderr_chunk (trace o) ++
   match ending o with
   | Raised e => [ErrTraceback e]
   | SystemExit _ => []
   end)%list.

Definition observable (o : Outcome) : bytes * list ErrChunk * Z :=
  (stdout_bytes (trace o), stderr_of o, exit_status (ending o)).

(** ** When the bytes reach the file descriptors *)

(** Both [sys.stdout.buffer] and [sys.stderr.buffer] are [BufferedWriter]s
    of [io.DEFAULT_BUFFER_SIZE] bytes (the interpreter is not run with
    [-u]).  A write that fits the free space only fills the buffer.  One
    that does not fit first empties the buffer into the descriptor; then
    data longer than the whole buffer goes to the descriptor at once, and
    shorter data is kept. *)
Definition buffer_size : nat := 8192.

(** The raw writes a [BufferedWriter] makes when it is flushed. *)
Definition BufferedWriter_flush (pending : bytes) : list bytes :=
  if truthy pending then [pending] else [].

(** The raw writes [write(data)] makes, and what is pending afterwards. *)
Definition BufferedWriter_write (pending data : bytes) : list bytes * bytes :=
  if (List.length data <=? buffer_size - List.length pending)%nat
  then ([], (pending ++ data)%list)
  else if (buffer_size <? List.length data)%nat
       then ((BufferedWriter_flush pending ++ [data])%list, [])
       else (BufferedWriter_flush pending, data).

Inductive Fd : Type :=
| Fd1    (* standard output *)
| Fd2.   (* standard error *)

(** What arrives outside the process, in order. *)
Inductive Emission : Type :=
| Emit (fd : Fd) (data : bytes)
| EmitTraceback (e : Exception).

(** The pending bytes of the two writers. *)
Record Writers : Type := mkWriters {
  out_pending : bytes;
  err_pending : bytes
}.

(** One event.  [sys.stderr] is line buffered: printed text, which ends
    with a line end, passes through the writer and is flushed at once. *)
Definition emit_event (w : Writers) (ev : Event) : list Emission * Writers :=
  match ev with
  | StdoutBufferWrite d =>
      let '(raw, p) := BufferedWriter_write (out_pending w) d in
      (map (Emit Fd1) raw, mkWriters p (err_pending w))
  | StderrBufferWrite d =>
      let '(raw, p) := BufferedWriter_write (err_pending w) d in
      (map (Emit Fd2) raw, mkWriters (out_pending w) p)
  | StderrText s =>
      let '(raw, p) :=
        BufferedWriter_write (err_pending w) (list_byte_of_string s) in
      (map (Emit Fd2) (raw ++ BufferedWriter_flush p)%list,
       mkWriters (out_pending w) [])
  | ImportWinrm | SessionNew _ | RunPs _ _ => ([], w)
  end.

Fixpoint emit_trace (w : Writers) (t : list Event) : list Emission * Writers :=
  match t with
  | [] => ([], w)
  | ev :: t' =>
      let '(now, w') := emit_event w ev in
      let '(later, w'') := emit_trace w' t' in
      ((now ++ later)%list, w'')
  end.

(** When the module body is over, by [sys.exit] or by an exception, the
    interpreter flushes [sys.stderr] and then [sys.stdout]; only then is a
    traceback printed. *)
Definition flush_io (w : Writers) : list Emission :=
  (map (Emit Fd2) (BufferedWriter_flush (err_pending w)) ++
   map (Emit Fd1) (BufferedWriter_flush (out_pending w)))%list.

Definition emissions (o : Outcome) : list Emission :=
  let '(during, w) := emit_trace (mkWriters [] []) (trace o) in
  (during ++ flush_io w ++
   match ending o with
   | Raised e => [EmitTraceback e]
   | SystemExit _ => []
   end)%list.

(** ** Situations of a run *)

(** The session the script asks for. *)
Definition script_session (host user password : string) : Session :=
  mkSession ("http://" ++ host ++ ":5985/wsman") (user, password) "ntlm".

(** The remote command executed and the package handed back [r]. *)
Definition executed (env : Env) (host user password command : string)
    (r : Response) : Prop :=
  exists lib,
    winrm_module env = inr lib /\
    Session_init lib (script_session host user password) = None /\
    run_ps lib (script_session host user password) command = inr r.

(** The package raised [e] while the session was set up or used. *)
Definition transport_failure (env : Env) (host user password command : string)
    (e : Exception) : Prop :=
  exists lib,
    winrm_module env = inr lib /\
    (Session_init lib (script_session host user password) = Some e \/
     (Session_init lib (script_session host user password) = None /\
      run_ps lib (script_session host user password) command = inl e)).

(** The package cannot be imported. *)
Definition transport_unavailable (env : Env) (e : Exception) : Prop :=
  winrm_module env = inl e /\ isinstance_ImportError e = true.

(** The events of the relay of [r]. *)
Definition relay (r : Response) : list Event :=
  ((if truthy (std_out r) then [StdoutBufferWrite (std_out r)] else []) ++
   (if truthy (std_err r) then [StderrBufferWrite (std_err r)] else []))%list.

(** What the caller observes of a run that relays [r]. *)
Definition relayed (r : Response) : bytes * list ErrChunk * Z :=
  (std_out r,
   if truthy (std_err r) then [ErrBytes (std_err r)] else [],
   exit_status (SystemExit (status_code r))).

(** ** The password on the command line *)

(** The same command line with another fourth entry. *)
Definition with_password (argv : list string) (pw : string) : list string :=
  match argv with
  | a0 :: a1 :: a2 :: _ :: rest => a0 :: a1 :: a2 :: pw :: rest
  | _ => argv
  end.

(** A session and an event with the password blanked. *)
Definition redact_session (s : Session) : Session :=
  mkSession (target s) (fst (auth s), "") (transport s).

Definition redact (ev : Event) : Event :=
  match ev with
  | SessionNew s => SessionNew (redact_session s)
  | RunPs s c => RunPs (redact_session s) c
  | _ => ev
  end.

(** An environment whose package answers alike whatever the password. *)
Definition password_blind (env : Env) : Prop :=
  match winrm_module env with
  | inl _ => True
  | inr lib =>
      forall s1 s2 c,
        redact_session s1 = redact_session s2 ->
        Session_init lib s1 = Session_init lib s2 /\
        run_ps lib s1 c = run_ps lib s2 c
  end.

(** ** The paths of a run *)

(** Every run takes exactly one of seven paths. *)
Inductive Path (env : Env) : list string -> Outcome -> Prop :=
| PathNoArgv :
    Path env []
      (mkOutcome [] (Raised (mkException IndexError "list index out of range")))
| PathUsage prog args :
    List.length args <> 4%nat ->
    Path env (prog :: args)
      (mkOutcome [StderrText (usage prog ++ newline)] (SystemExit 2))
| PathNotInstalled prog host user password command e :
    winrm_module env = inl e -> isinstance_ImportError e = true ->
    Path env [prog; host; user; password; command]
      (mkOutcome [ImportWinrm; StderrText (not_installed ++ newline)]
                 (SystemExit 2))
| PathImportRaises prog host user password command e :
    winrm_module env = inl e -> isinstance_ImportError e = false ->
    Path env [prog; host; user; password; command]
      (mkOutcome [ImportWinrm] (Raised e))
| PathSessionRaises prog host user password command lib e :
    winrm_module env = inr lib ->
    Session_init lib (script_session host user password) = Some e ->
    Path env [prog; host; user; password; command]
      (mkOutcome [ImportWinrm; SessionNew (script_session host user password)]
                 (Raised e))
| PathRunPsRaises prog host user password command lib e :
    winrm_module env = inr lib ->
    Session_init lib (script_session host user password) = None ->
    run_ps lib (script_session host user password) command = inl e ->
    Path env [prog; host; user; password; command]
      (mkOutcome [ImportWinrm; SessionNew (script_session host user password);
                  RunPs (script_session host user password) command]
                 (Raised e))
| PathRelays prog host user password command lib r :
    winrm_module env = inr lib ->
    Session_init lib (script_session host user password) = None ->
    run_ps lib (script_session host user password) command = inr r ->
    Path env [prog; host; user; password; command]
      (mkOutcome ([ImportWinrm; SessionNew (script_session host user password);
                   RunPs (script_session host user password) command]
                  ++ relay r)
                 (SystemExit (status_code r))).

(** ** Counting the calls into the package *)

Definition is_import (ev : Event) : bool :=
  match ev with
  | ImportWinrm => true
  | _ => false
  end.

Definition is_session_new (ev : Event) : bool :=
  match ev with
  | SessionNew _ => true
  | _ => false
  end.

Definition is_run_ps (ev : Event) : bool :=
  match ev with
  | RunPs _ _ => true
  | _ => false
  end.

(** How many events of a trace satisfy [p]. *)
Definition calls (p : Event -> bool) (t : list Event) : nat :=
  List.length (filter p t).

(** ** Sample environments *)

Module Samples.

Definition no_pywinrm : Env :=
  mkEnv (inl (mkException ModuleNotFoundError "No module named 'winrm'")).

(** A host that answers every script with the same response. *)
Definition answering (r : Response) : Env :=
  mkEnv (inr (mkWinrm (fun _ => None) (fun _ _ => inr r))).

(** A host that cannot be reached: the first use of the session fails. *)
Definition refused : Exception :=
  mkException (ForeignError "requests.exceptions.ConnectionError")
              "Connection refused".

Definition unreachable : Env :=
  mkEnv (inr (mkWinrm (fun _ => None) (fun _ _ => inl refused))).

(** A package whose constructor already fails. *)
Definition broken_ctor : Env :=
  mkEnv (inr (mkWinrm (fun _ => Some refused) (fun _ _ => inl refused))).

(** A host that accepts one password only. *)
Definition rejected : Exception :=
  mkException (ForeignError "winrm.exceptions.InvalidCredentialsError")
              "the specified credentials were rejected by the server".

Definition guarded (secret : string) (r : Response) : Env :=
  mkEnv (inr (mkWinrm (fun _ => None)
                      (fun s _ => if String.eqb (snd (auth s)) secret
                                  then inr r else inl rejected))).

Definition hello : Response :=
  mkResponse [x68; x69; x0d; x0a; x00; xff] [] 0.

Definition failing : Response :=
  mkResponse [x6f; x75; x74] [x65; x72; x72; x0d; x0a] 1.

Definition silent255 : Response := mkResponse [] [] 255.

(** Exit codes of Windows programs are 32 bits wide. *)
Definition exit256 : Response := mkResponse [] [] 256.

Definition reboot_required : Response := mkResponse [] [] 3010.

(** More standard output than a buffer holds. *)
Definition verbose : Response :=
  mkResponse (repeat x41 8193) [x65; x72; x72; x0d; x0a] 0.

Definition argv4 : list string :=
  ["winrm-cmd.py"; "10.0.0.7"; "admin"; "hunter2"; "hostname"].

End Samples.

(** ** Concrete runs *)

Example run_hello :
  observable (winrm_cmd (Samples.answering Samples.hello) Samples.argv4) =
  ([x68; x69; x0d; x0a; x00; xff], [], 0%Z).
Proof. reflexivity. Qed.

Example run_failing :
  winrm_cmd (Samples.answering Samples.failing) Samples.argv4 =
  mkOutcome
    [ImportWinrm;
     SessionNew (mkSession "http://10.0.0.7:5985/wsman" ("admin", "hunter2")
                           "ntlm");
     RunPs (mkSession "http://10.0.0.7:5985/wsman" ("admin", "hunter2")
                      "ntlm") "hostname";
     StdoutBufferWrite [x6f; x75; x74];
     StderrBufferWrite [x65; x72; x72; x0d; x0a]]
    (SystemExit 1).
Proof. reflexivity. Qed.

Example run_silent255 :
  winrm_cmd (Samples.answering Samples.silent255) Samples.argv4 =
  mkOutcome
    [ImportWinrm;
     SessionNew (script_session "10.0.0.7" "admin" "hunter2");
     RunPs (script_session "10.0.0.7" "admin" "hunter2") "hostname"]
    (SystemExit 255).
Proof. reflexivity. Qed.

Example run_exit256 :
  observable (winrm_cmd (Samples.answering Samples.exit256) Samples.argv4) =
  ([], [], 0%Z).
Proof. reflexivity. Qed.

Example run_reboot_required :
  observable (winrm_cmd (Samples.answering Samples.reboot_required)
                Samples.argv4) =
  ([], [], 194%Z).
Proof. reflexivity. Qed.

Example emissions_verbose :
  emissions (winrm_cmd (Samples.answering Samples.verbose) Samples.argv4) =
  [Emit Fd1 (std_out Samples.verbose); Emit Fd2 [x65; x72; x72; x0d; x0a]].
Proof. vm_compute. reflexivity. Qed.

Example emissions_usage :
  emissions (winrm_cmd Samples.no_pywinrm ["winrm-cmd.py"]) =
  [Emit Fd2 (list_byte_of_string (usage "winrm-cmd.py" ++ newline))].
Proof. vm_compute. reflexivity. Qed.

Example run_too_few :
  winrm_cmd (Samples.answering Samples.hello) ["winrm-cmd.py"; "10.0.0.7"] =
  mkOutcome
    [StderrText
       ("Usage: winrm-cmd.py <host> <user> <password> <powershell-command>"
        ++ newline)]
    (SystemExit 2).
Proof. reflexivity. Qed.

Example run_no_pywinrm :
  observable (winrm_cmd Samples.no_pywinrm Samples.argv4) =
  ([],
   [ErrText ("pywinrm not installed. Install with: pip install pywinrm"
             ++ newline)],
   2%Z).
Proof. reflexivity. Qed.

Example run_unreachable :
  observable (winrm_cmd Samples.unreachable Samples.argv4) =
  ([], [ErrTraceback Samples.refused], 1%Z).
Proof. reflexivity. Qed.

Example run_wrong_password :
  observable (winrm_cmd (Samples.guarded "hunter2" Samples.hello)
                ["winrm-cmd.py"; "10.0.0.7"; "admin"; "letmein"; "hostname"]) =
  ([], [ErrTraceback Samples.rejected], 1%Z).
Proof. reflexivity. Qed.

(** ** Proof tools *)

(** Find the place of an event in a trace that is known entry by entry:
    [Ht : [e1; ...; en] = before ++ ev :: after]. *)
Ltac split_at_event Ht before :=
  destruct before as [|? before]; cbn in Ht;
  [ first [ discriminate Ht
          | let E := fresh "E" in
            injection Ht as E Ht; first [discriminate E | subst] ]
  | first [ discriminate Ht
          | let E := fresh "E" in
            injection Ht as E Ht; subst; split_at_event Ht before ] ].

(** ** One equation per path *)

Section Paths.

Variable env : Env.

Lemma run_no_argv :
  winrm_cmd env [] =
  mkOutcome [] (Raised (mkException IndexError "list index out of range")).
Proof. reflexivity. Qed.

Lemma run_usage (prog : string) (args : list string) :
  List.length args <> 4%nat ->
  winrm_cmd env (prog :: args) =
  mkOutcome [StderrText (usage prog ++ newline)] (SystemExit 2).
Proof.
  intros Hlen. unfold winrm_cmd, winrm_cmd_body.
  destruct (Nat.eqb_spec (List.length (prog :: args)) 5) as [E | _].
  - simpl in E. lia.
  - reflexivity.
Qed.

Variables prog host user password command : string.

Local Abbreviation argv := [prog; host; user; password; command].
Local Abbreviation s := (script_session host user password).

Lemma run_not_installed (e : Exception) :
  winrm_module env = inl e -> isinstance_ImportError e = true ->
  winrm_cmd env argv =
  mkOutcome [ImportWinrm; StderrText (not_installed ++ newline)]
            (SystemExit 2).
Proof.
  intros Hm Hi. unfold winrm_cmd, winrm_cmd_body. cbn.
  unfold import_winrm. rewrite Hm. cbn. rewrite Hi. reflexivity.
Qed.

Lemma run_import_raises (e : Exception) :
  winrm_module env = inl e -> isinstance_ImportError e = false ->
  winrm_cmd env argv = mkOutcome [ImportWinrm] (Raised e).
Proof.
  intros Hm Hi. unfold winrm_cmd, winrm_cmd_body. cbn.
  unfold import_winrm. rewrite Hm. cbn. rewrite Hi. reflexivity.
Qed.

Variable lib : Winrm.
Hypothesis Hlib : winrm_module env = inr lib.

Lemma run_session_raises (e : Exception) :
  Session_init lib s = Some e ->
  winrm_cmd env argv = mkOutcome [ImportWinrm; SessionNew s] (Raised e).
Proof.
  intros Hs. unfold winrm_cmd, winrm_cmd_body, script_session in *.
  cbn in Hs |- *.
  unfold import_winrm. rewrite Hlib. cbn. rewrite Hs. reflexivity.
Qed.

Lemma run_ps_raises (e : Exception) :
  Session_init lib s = None -> run_ps lib s command = inl e ->
  winrm_cmd env argv =
  mkOutcome [ImportWinrm; SessionNew s; RunPs s command] (Raised e).
Proof.
  intros Hs Hr. unfold winrm_cmd, winrm_cmd_body, script_session in *.
  cbn in Hs, Hr |- *.
  unfold import_winrm. rewrite Hlib. cbn. rewrite Hs. cbn.
  rewrite Hr. reflexivity.
Qed.

Lemma run_relays (r : Response) :
  Session_init lib s = None -> run_ps lib s command = inr r ->
  winrm_cmd env argv =
  mkOutcome ([ImportWinrm; SessionNew s; RunPs s command] ++ relay r)
            (SystemExit (status_code r)).
Proof.
  intros Hs Hr. unfold winrm_cmd, winrm_cmd_body, script_session in *.
  cbn in Hs, Hr |- *.
  unfold import_winrm. rewrite Hlib. cbn. rewrite Hs. cbn.
  rewrite Hr. cbn.
  unfold relay. destruct (std_out r), (std_err r); reflexivity.
Qed.

End Paths.

Lemma four_args (args : list string) :
  List.length args = 4%nat ->
  exists host user password command, args = [host; user; password; command].
Proof.
  destruct args as [|a [|b [|c [|d [|x args]]]]]; simpl; intros H;
    try discriminate.
  now exists a, b, c, d.
Qed.

Lemma winrm_cmd_path (env : Env) (argv : list string) :
  Path env argv (winrm_cmd env argv).
Proof.
  destruct argv as [|prog args].
  - rewrite run_no_argv. constructor.
  - destruct (Nat.eq_dec (List.length args) 4) as [H4 | H4].
    + destruct (four_args args H4) as (host & user & password & command & ->).
      destruct (winrm_module env) as [e | lib] eqn:Hm.
      * destruct (isinstance_ImportError e) eqn:Hi.
        -- rewrite (run_not_installed env _ _ _ _ _ e Hm Hi).
           eapply PathNotInstalled; eassumption.
        -- rewrite (run_import_raises env _ _ _ _ _ e Hm Hi).
           eapply PathImportRaises; eassumption.
      * destruct (Session_init lib (script_session host user password))
          as [e |] eqn:Hs.
        -- rewrite (run_session_raises env _ _ _ _ _ lib Hm e Hs).
           eapply PathSessionRaises; eassumption.
        -- destruct (run_ps lib (script_session host user password) command)
             as [e | r] eqn:Hr.
           ++ rewrite (run_ps_raises env _ _ _ _ _ lib Hm e Hs Hr).
              eapply PathRunPsRaises; eassumption.
           ++ rewrite (run_relays env _ _ _ _ _ lib Hm r Hs Hr).
              eapply PathRelays; eassumption.
    + rewrite (run_usage env prog args H4). now constructor.
Qed.

(** The run of an invocation in which the remote command executed. *)
Lemma run_executed env prog host user password command r :
  executed env host user password command r ->
  winrm_cmd env [prog; host; user; password; command] =
  mkOutcome ([ImportWinrm; SessionNew (script_session host user password);
              RunPs (script_session host user password) command] ++ relay r)
            (SystemExit (status_code r)).
Proof.
  intros (lib & Hm & Hs & Hr). now apply run_relays with (lib := lib).
Qed.

(** What the relay puts on the two streams. *)
Lemma stdout_bytes_relay (r : Response) : stdout_bytes (relay r) = std_out r.
Proof.
  unfold relay. destruct (std_out r), (std_err r); simpl;
    rewrite ?app_nil_r; reflexivity.
Qed.

Lemma stderr_bytes_relay (r : Response) : stderr_bytes (relay r) = std_err r.
Proof.
  unfold relay. destruct (std_out r), (std_err r); simpl;
    rewrite ?app_nil_r; reflexivity.
Qed.

Lemma in_relay (r : Response) (ev : Event) :
  In ev (relay r) <->
  (ev = StdoutBufferWrite (std_out r) /\ std_out r <> []) \/
  (ev = StderrBufferWrite (std_err r) /\ std_err r <> []).
Proof.
  unfold relay. rewrite in_app_iff.
  destruct (std_out r) as [|a o], (std_err r) as [|b e]; simpl;
    intuition congruence.
Qed.

(** ** Exit code *)




(** ** Usage errors *)

(** C2.  With a number of positional arguments other than four the script
    prints the usage line on the error stream, writes nothing to standard
    output, and exits with code 2. *)
Theorem usage_error_exits_2 env prog args :
  List.length args <> 4%nat ->
  stderr_of (winrm_cmd env (prog :: args)) = [ErrText (usage prog ++ newline)] /\
  stdout_bytes (trace (winrm_cmd env (prog :: args))) = [] /\
  (forall d, ~ In (StdoutBufferWrite d) (trace (winrm_cmd env (prog :: args)))) /\
  exit_status (ending (winrm_cmd env (prog :: args))) = 2%Z.
Proof.
  intros H. rewrite (run_usage env prog args H). repeat split.
  intros d [E | []]. discriminate E.
Qed.

Lemma usage_error_exits_2_witness :
  List.length ["10.0.0.7"; "admin"; "hunter2"] <> 4%nat /\
  stderr_of (winrm_cmd Samples.no_pywinrm
               ["winrm-cmd.py"; "10.0.0.7"; "admin"; "hunter2"]) =
    [ErrText ("Usage: winrm-cmd.py <host> <user> <password> <powershell-command>"
              ++ newline)] /\
  exit_status (ending (winrm_cmd Samples.no_pywinrm
               ["winrm-cmd.py"; "10.0.0.7"; "admin"; "hunter2"])) = 2%Z.
Proof.
  assert (H : List.length ["10.0.0.7"; "admin"; "hunter2"] <> 4%nat)
    by (simpl; lia).
  split; [exact H |].
  destruct (usage_error_exits_2 Samples.no_pywinrm "winrm-cmd.py" _ H)
    as (He & _ & _ & Hx).
  split; [exact He | exact Hx].
Defined.

(** C9.  A usage error ends the run before [import winrm] and before any
    [winrm.Session] is built or used: the whole trace is the usage line,
    whatever the environment would have answered. *)
Theorem usage_error_touches_nothing env prog args :
  List.length args <> 4%nat ->
  trace (winrm_cmd env (prog :: args)) = [StderrText (usage prog ++ newline)] /\
  ending (winrm_cmd env (prog :: args)) = SystemExit 2 /\
  ~ In ImportWinrm (trace (winrm_cmd env (prog :: args))) /\
  (forall s, ~ In (SessionNew s) (trace (winrm_cmd env (prog :: args)))) /\
  (forall s c, ~ In (RunPs s c) (trace (winrm_cmd env (prog :: args)))).
Proof.
  intros H. rewrite (run_usage env prog args H). simpl.
  split; [reflexivity | split; [reflexivity |]].
  split; [| split].
  - intros [E | []]. discriminate E.
  - intros s [E | []]. discriminate E.
  - intros s c [E | []]. discriminate E.
Qed.

Lemma usage_error_touches_nothing_witness :
  List.length ["10.0.0.7"; "admin"; "hunter2"; "hostname"; "extra"] <> 4%nat /\
  trace (winrm_cmd (Samples.answering Samples.hello)
           ["winrm-cmd.py"; "10.0.0.7"; "admin"; "hunter2"; "hostname"; "extra"]) =
    [StderrText (usage "winrm-cmd.py" ++ newline)].
Proof.
  assert (H : List.length ["10.0.0.7"; "admin"; "hunter2"; "hostname"; "extra"]
              <> 4%nat) by (simpl; lia).
  split; [exact H |].
  exact (proj1 (usage_error_touches_nothing
                  (Samples.answering Samples.hello) "winrm-cmd.py" _ H)).
Defined.

(** ** Missing transport *)

(** C5.  With four arguments and [import winrm] failing with an
    [ImportError], the script prints the remediation message on the error
    stream and exits with code 2. *)
Theorem transport_unavailable_exits_2 env prog host user password command e :
  transport_unavailable env e ->
  stderr_of (winrm_cmd env [prog; host; user; password; command]) =
    [ErrText (not_installed ++ newline)] /\
  stdout_bytes (trace (winrm_cmd env [prog; host; user; password; command])) = [] /\
  exit_status (ending (winrm_cmd env [prog; host; user; password; command])) = 2%Z.
Proof.
  intros [Hm Hi].
  rewrite (run_not_installed env prog host user password command e Hm Hi).
  repeat split.
Qed.

Lemma transport_unavailable_exits_2_witness :
  transport_unavailable Samples.no_pywinrm
    (mkException ModuleNotFoundError "No module named 'winrm'") /\
  stderr_of (winrm_cmd Samples.no_pywinrm Samples.argv4) =
    [ErrText ("pywinrm not installed. Install with: pip install pywinrm"
              ++ newline)] /\
  exit_status (ending (winrm_cmd Samples.no_pywinrm Samples.argv4)) = 2%Z.
Proof.
  assert (H : transport_unavailable Samples.no_pywinrm
                (mkException ModuleNotFoundError "No module named 'winrm'"))
    by (split; reflexivity).
  split; [exact H |].
  destruct (transport_unavailable_exits_2 Samples.no_pywinrm
              "winrm-cmd.py" "10.0.0.7" "admin" "hunter2" "hostname" _ H)
    as (He & _ & Hx).
  split; [exact He | exact Hx].
Defined.

(** ** Output relay *)

Lemma in_executed_trace env prog host user password command r ev :
  executed env host user password command r ->
  In ev (trace (winrm_cmd env [prog; host; user; password; command])) <->
  ev = ImportWinrm \/
  ev = SessionNew (script_session host user password) \/
  ev = RunPs (script_session host user password) command \/
  (ev = StdoutBufferWrite (std_out r) /\ std_out r <> []) \/
  (ev = StderrBufferWrite (std_err r) /\ std_err r <> []).
Proof.
  intros H. rewrite (run_executed _ prog _ _ _ _ _ H).
  cbn [trace]. rewrite in_app_iff, in_relay. simpl.
  intuition congruence.
Qed.

(** C3.  The captured [std_out], when it is not empty, goes to
    [sys.stdout.buffer] in one write of exactly those bytes, and likewise
    [std_err] to [sys.stderr.buffer]; an empty capture causes no write.  The
    bytes on each local stream are the captured bytes, none changed. *)
Theorem relay_is_byte_exact env prog host user password command r :
  executed env host user password command r ->
  stdout_bytes (trace (winrm_cmd env [prog; host; user; password; command])) =
    std_out r /\
  stderr_bytes (trace (winrm_cmd env [prog; host; user; password; command])) =
    std_err r /\
  (forall d,
     In (StdoutBufferWrite d)
        (trace (winrm_cmd env [prog; host; user; password; command])) <->
     d = std_out r /\ d <> []) /\
  (forall d,
     In (StderrBufferWrite d)
        (trace (winrm_cmd env [prog; host; user; password; command])) <->
     d = std_err r /\ d <> []).
Proof.
  intros H. split; [| split; [| split]].
  - rewrite (run_executed _ prog _ _ _ _ _ H). cbn [trace].
    change (stdout_bytes (relay r) = std_out r). apply stdout_bytes_relay.
  - rewrite (run_executed _ prog _ _ _ _ _ H). cbn [trace].
    change (stderr_bytes (relay r) = std_err r). apply stderr_bytes_relay.
  - intros d. rewrite (in_executed_trace _ prog _ _ _ _ _ _ H). split.
    + intros [E | [E | [E | [[E N] | [E _]]]]]; try discriminate E.
      injection E as ->. now split.
    + intros [-> N]. right; right; right; left. now split.
  - intros d. rewrite (in_executed_trace _ prog _ _ _ _ _ _ H). split.
    + intros [E | [E | [E | [[E _] | [E N]]]]]; try discriminate E.
      injection E as ->. now split.
    + intros [-> N]. right; right; right; right. now split.
Qed.

Lemma relay_is_byte_exact_witness :
  executed (Samples.answering Samples.hello)
           "10.0.0.7" "admin" "hunter2" "hostname" Samples.hello /\
  stdout_bytes (trace (winrm_cmd (Samples.answering Samples.hello)
                                 Samples.argv4)) =
    [x68; x69; x0d; x0a; x00; xff] /\
  stderr_bytes (trace (winrm_cmd (Samples.answering Samples.hello)
                                 Samples.argv4)) = [].
Proof.
  assert (H : executed (Samples.answering Samples.hello)
                "10.0.0.7" "admin" "hunter2" "hostname" Samples.hello).
  { eexists. repeat split; reflexivity. }
  split; [exact H |].
  destruct (relay_is_byte_exact _ "winrm-cmd.py" _ _ _ _ _ H)
    as (Ho & He & _).
  split; [exact Ho | exact He].
Defined.







(** ** The session *)

(** C6.  Once [winrm] is imported, the one session the script builds has
    the target [http://<host>:5985/wsman], the credentials [(user,
    password)] and the transport [ntlm]; no other session is built, and
    [run_ps] is called on that session only. *)
Theorem session_is_http_5985_ntlm env lib prog host user password command :
  winrm_module env = inr lib ->
  script_session host user password =
    {| target := "http://" ++ host ++ ":5985/wsman";
       auth := (user, password);
       transport := "ntlm" |} /\
  (exists rest,
     trace (winrm_cmd env [prog; host; user; password; command]) =
     ImportWinrm :: SessionNew (script_session host user password) :: rest) /\
  (forall s,
     In (SessionNew s)
        (trace (winrm_cmd env [prog; host; user; password; command])) ->
     s = script_session host user password) /\
  (forall s c,
     In (RunPs s c)
        (trace (winrm_cmd env [prog; host; user; password; command])) ->
     s = script_session host user password /\ c = command).
Proof.
  intros Hm. split; [reflexivity |].
  destruct (Session_init lib (script_session host user password))
    as [e |] eqn:Hs.
  { rewrite (run_session_raises env prog _ _ _ command lib Hm e Hs).
    cbn [trace]. split; [now eexists | split].
    - intros s [E | [E | []]]; [discriminate E | now injection E].
    - intros s c [E | [E | []]]; discriminate E. }
  destruct (run_ps lib (script_session host user password) command)
    as [e | r] eqn:Hr.
  { rewrite (run_ps_raises env prog _ _ _ _ lib Hm e Hs Hr).
    cbn [trace]. split; [now eexists | split].
    - intros s [E | [E | [E | []]]]; try discriminate E. now injection E.
    - intros s c [E | [E | [E | []]]]; try discriminate E.
      injection E as <- <-. now split. }
  assert (Hex : executed env host user password command r)
    by (exists lib; auto).
  split; [| split].
  - rewrite (run_executed _ prog _ _ _ _ _ Hex). cbn. now eexists.
  - intros s. rewrite (in_executed_trace _ prog _ _ _ _ _ _ Hex).
    intros [E | [E | [E | [[E _] | [E _]]]]]; try discriminate E.
    now injection E.
  - intros s c. rewrite (in_executed_trace _ prog _ _ _ _ _ _ Hex).
    intros [E | [E | [E | [[E _] | [E _]]]]]; try discriminate E.
    injection E as -> ->. now split.
Qed.

Lemma session_is_http_5985_ntlm_witness :
  winrm_module (Samples.answering Samples.hello) =
    inr (mkWinrm (fun _ => None) (fun _ _ => inr Samples.hello)) /\
  script_session "10.0.0.7" "admin" "hunter2" =
    {| target := "http://10.0.0.7:5985/wsman";
       auth := ("admin", "hunter2");
       transport := "ntlm" |}.
Proof.
  split; [reflexivity |].
  exact (proj1 (session_is_http_5985_ntlm
                  (Samples.answering Samples.hello) _
                  "winrm-cmd.py" "10.0.0.7" "admin" "hunter2" "hostname"
                  eq_refl)).
Defined.

(** ** Determinism of the relay *)

(** C7.  Two runs with the same arguments whose remote executions hand back
    the same result show the same standard output, error stream and exit
    code, in whatever environments they run: what is observed is
    [relayed r], a function of the result alone. *)
Theorem same_result_same_outcome env1 env2 prog host user password command r :
  executed env1 host user password command r ->
  executed env2 host user password command r ->
  observable (winrm_cmd env1 [prog; host; user; password; command]) =
    observable (winrm_cmd env2 [prog; host; user; password; command]) /\
  observable (winrm_cmd env1 [prog; host; user; password; command]) =
    relayed r.
Proof.
  assert (Hobs : forall env, executed env host user password command r ->
            observable (winrm_cmd env [prog; host; user; password; command]) =
            relayed r).
  { intros env H. rewrite (run_executed _ prog _ _ _ _ _ H).
    unfold observable, relayed, stderr_of. cbn [trace ending].
    change (stdout_bytes _) with (stdout_bytes (relay r)).
    rewrite stdout_bytes_relay, app_nil_r. f_equal. f_equal.
    unfold relay. destruct (std_out r), (std_err r); reflexivity. }
  intros H1 H2. rewrite (Hobs env1 H1), (Hobs env2 H2). split; reflexivity.
Qed.

Lemma same_result_same_outcome_witness :
  executed (Samples.answering Samples.failing)
           "10.0.0.7" "admin" "hunter2" "hostname" Samples.failing /\
  executed (Samples.guarded "hunter2" Samples.failing)
           "10.0.0.7" "admin" "hunter2" "hostname" Samples.failing /\
  observable (winrm_cmd (Samples.answering Samples.failing) Samples.argv4) =
    observable (winrm_cmd (Samples.guarded "hunter2" Samples.failing)
                          Samples.argv4).
Proof.
  assert (H1 : executed (Samples.answering Samples.failing)
                 "10.0.0.7" "admin" "hunter2" "hostname" Samples.failing).
  { eexists. repeat split; reflexivity. }
  assert (H2 : executed (Samples.guarded "hunter2" Samples.failing)
                 "10.0.0.7" "admin" "hunter2" "hostname" Samples.failing).
  { eexists. repeat split; reflexivity. }
  split; [exact H1 | split; [exact H2 |]].
  exact (proj1 (same_result_same_outcome _ _ "winrm-cmd.py" _ _ _ _ _ H1 H2)).
Defined.

(** ** Transport failures *)

(** The script has no handler around the session: what the package raises
    reaches the top level. *)

(** C4, as stated, fails: a host that cannot be reached and a remote command
    that ends with [exit 1] give the same exit code, 1. *)
Lemma transport_failure_exits_like_remote_exit_1 :
  transport_failure Samples.unreachable
    "10.0.0.7" "admin" "hunter2" "hostname" Samples.refused /\
  executed (Samples.answering Samples.failing)
    "10.0.0.7" "admin" "hunter2" "hostname" Samples.failing /\
  status_code Samples.failing = 1%Z /\
  exit_status (ending (winrm_cmd Samples.unreachable Samples.argv4)) = 1%Z /\
  exit_status (ending (winrm_cmd (Samples.answering Samples.failing)
                                 Samples.argv4)) = 1%Z.
Proof.
  split; [| split; [| repeat split]].
  - eexists. split; [reflexivity |]. right. split; reflexivity.
  - eexists. repeat split; reflexivity.
Qed.

(** C4, amended.  A failure raised by the package while the session is set
    up or used is not caught: the run ends with that exception, so the
    error stream carries its traceback and nothing else, nothing is relayed
    to standard output, and the exit status is 1, the status of any
    uncaught exception. *)
Theorem transport_failure_is_uncaught env prog host user password command e :
  transport_failure env host user password command e ->
  ending (winrm_cmd env [prog; host; user; password; command]) = Raised e /\
  stderr_of (winrm_cmd env [prog; host; user; password; command]) =
    [ErrTraceback e] /\
  stdout_bytes (trace (winrm_cmd env [prog; host; user; password; command])) =
    [] /\
  exit_status (ending (winrm_cmd env [prog; host; user; password; command])) =
    1%Z /\
  exit_status (ending (winrm_cmd env [prog; host; user; password; command])) <>
    0%Z.
Proof.
  intros (lib & Hm & [Hs | [Hs Hr]]).
  - rewrite (run_session_raises env prog _ _ _ command lib Hm e Hs).
    repeat split. discriminate.
  - rewrite (run_ps_raises env prog _ _ _ _ lib Hm e Hs Hr).
    repeat split. discriminate.
Qed.

Lemma transport_failure_is_uncaught_witness :
  transport_failure Samples.broken_ctor
    "10.0.0.7" "admin" "hunter2" "hostname" Samples.refused /\
  stderr_of (winrm_cmd Samples.broken_ctor Samples.argv4) =
    [ErrTraceback Samples.refused] /\
  exit_status (ending (winrm_cmd Samples.broken_ctor Samples.argv4)) = 1%Z.
Proof.
  assert (H : transport_failure Samples.broken_ctor
                "10.0.0.7" "admin" "hunter2" "hostname" Samples.refused).
  { eexists. split; [reflexivity |]. left. reflexivity. }
  split; [exact H |].
  destruct (transport_failure_is_uncaught _ "winrm-cmd.py" _ _ _ _ _ H)
    as (_ & He & _ & Hx & _).
  split; [exact He | exact Hx].
Defined.

(** ** The password *)

Lemma with_password_shape prog args pw :
  exists args',
    with_password (prog :: args) pw = prog :: args' /\
    List.length args' = List.length args.
Proof.
  destruct args as [|a [|b [|c args]]]; simpl; eexists; split; reflexivity.
Qed.

Lemma own_text_relay (r : Response) : own_text (relay r) = [].
Proof. unfold relay. destruct (std_out r), (std_err r); reflexivity. Qed.

Lemma own_text_with_package env lib prog host user password command :
  winrm_module env = inr lib ->
  own_text (trace (winrm_cmd env [prog; host; user; password; command])) = [].
Proof.
  intros Hm.
  destruct (Session_init lib (script_session host user password))
    as [e |] eqn:Hs.
  { now rewrite (run_session_raises env prog _ _ _ command lib Hm e Hs). }
  destruct (run_ps lib (script_session host user password) command)
    as [e | r] eqn:Hr.
  { now rewrite (run_ps_raises env prog _ _ _ _ lib Hm e Hs Hr). }
  rewrite (run_relays env prog _ _ _ _ lib Hm r Hs Hr). cbn [trace].
  change (own_text (relay r) = []). apply own_text_relay.
Qed.

(** C8.  The text the script prints itself does not depend on the password:
    it is nothing, the remediation message, or the usage line built from
    [sys.argv[0]], and it is the same when the fourth entry of the command
    line is replaced by anything else.  The password reaches the package
    in the [auth] pair of the session and nowhere else: if the package
    answers alike whatever the password, the whole run, password blanked in
    the session, and all that the caller observes are the same for any two
    passwords. *)
Theorem password_only_through_credentials env argv pw' :
  own_text (trace (winrm_cmd env argv)) =
    own_text (trace (winrm_cmd env (with_password argv pw'))) /\
  (own_text (trace (winrm_cmd env argv)) = [] \/
   own_text (trace (winrm_cmd env argv)) = [not_installed ++ newline] \/
   exists prog args,
     argv = prog :: args /\
     own_text (trace (winrm_cmd env argv)) = [usage prog ++ newline]) /\
  (password_blind env ->
   map redact (trace (winrm_cmd env argv)) =
     map redact (trace (winrm_cmd env (with_password argv pw'))) /\
   observable (winrm_cmd env argv) =
     observable (winrm_cmd env (with_password argv pw'))).
Proof.
  destruct argv as [|prog args].
  { simpl with_password. rewrite run_no_argv. cbn. auto. }
  destruct (Nat.eq_dec (List.length args) 4) as [H4 | H4].
  2:{ destruct (with_password_shape prog args pw') as (args' & -> & Hlen).
      rewrite (run_usage env prog args H4).
      rewrite (run_usage env prog args') by (rewrite Hlen; exact H4).
      cbn. split; [reflexivity | split; [| auto]].
      right; right. now exists prog, args. }
  destruct (four_args args H4) as (host & user & password & command & ->).
  simpl with_password.
  destruct (winrm_module env) as [e | lib] eqn:Hm.
  - destruct (isinstance_ImportError e) eqn:Hi.
    + rewrite !(run_not_installed env prog host user _ command e Hm Hi).
      cbn. auto.
    + rewrite !(run_import_raises env prog host user _ command e Hm Hi).
      cbn. auto.
  - rewrite !(own_text_with_package env lib prog host user _ command Hm).
    split; [reflexivity | split; [now left |]].
    unfold password_blind. rewrite Hm. intros Hb.
    destruct (Hb (script_session host user password)
                 (script_session host user pw') command eq_refl) as [Es Er].
    destruct (Session_init lib (script_session host user password))
      as [e |] eqn:Hs.
    { rewrite (run_session_raises env prog _ _ _ command lib Hm e Hs).
      rewrite (run_session_raises env prog _ _ _ command lib Hm e
                 (eq_sym Es)).
      split; reflexivity. }
    destruct (run_ps lib (script_session host user password) command)
      as [e | r] eqn:Hr.
    { rewrite (run_ps_raises env prog _ _ _ _ lib Hm e Hs Hr).
      rewrite (run_ps_raises env prog _ _ _ _ lib Hm e (eq_sym Es)
                 (eq_sym Er)).
      split; reflexivity. }
    rewrite (run_relays env prog _ _ _ _ lib Hm r Hs Hr).
    rewrite (run_relays env prog _ _ _ _ lib Hm r (eq_sym Es) (eq_sym Er)).
    split; reflexivity.
Qed.

Lemma password_only_through_credentials_witness :
  password_blind (Samples.answering Samples.failing) /\
  own_text (trace (winrm_cmd Samples.no_pywinrm Samples.argv4)) =
    own_text (trace (winrm_cmd Samples.no_pywinrm
      ["winrm-cmd.py"; "10.0.0.7"; "admin"; "correct horse"; "hostname"])) /\
  observable (winrm_cmd (Samples.answering Samples.failing) Samples.argv4) =
    observable (winrm_cmd (Samples.answering Samples.failing)
      ["winrm-cmd.py"; "10.0.0.7"; "admin"; "correct horse"; "hostname"]).
Proof.
  assert (H : password_blind (Samples.answering Samples.failing)).
  { intros s1 s2 c _. split; reflexivity. }
  split; [exact H | split].
  - exact (proj1 (password_only_through_credentials
                    Samples.no_pywinrm Samples.argv4 "correct horse")).
  - exact (proj2 (proj2 (proj2 (password_only_through_credentials
                    (Samples.answering Samples.failing) Samples.argv4
                    "correct horse")) H)).
Defined.

(** ** Beyond the relay: exit codes, calls and messages of every run *)



(** Exit code 2 has exactly three sources: a wrong number of arguments, a
    [winrm] package that cannot be imported, and a remote command whose
    [status_code] makes the exit status 2 (2 itself, or any other code with
    the same low eight bits, such as 258). *)
Theorem exit_code_2_sources env prog args :
  exit_status (ending (winrm_cmd env (prog :: args))) = 2%Z <->
  List.length args <> 4%nat \/
  (List.length args = 4%nat /\ exists e, transport_unavailable env e) \/
  (exists host user password command r,
     args = [host; user; password; command] /\
     executed env host user password command r /\
     exit_status (SystemExit (status_code r)) = 2%Z).
Proof.
  split.
  - intros Hc.
    destruct (Nat.eq_dec (List.length args) 4) as [H4 | H4]; [| now left].
    right.
    destruct (four_args args H4) as (host & user & password & command & ->).
    destruct (winrm_module env) as [e | lib] eqn:Hm.
    + destruct (isinstance_ImportError e) eqn:Hi.
      * left. split; [reflexivity |]. exists e. now split.
      * rewrite (run_import_raises env prog _ _ _ _ e Hm Hi) in Hc.
        discriminate Hc.
    + destruct (Session_init lib (script_session host user password))
        as [e |] eqn:Hs.
      { rewrite (run_session_raises env prog _ _ _ command lib Hm e Hs) in Hc.
        discriminate Hc. }
      destruct (run_ps lib (script_session host user password) command)
        as [e | r] eqn:Hr.
      { rewrite (run_ps_raises env prog _ _ _ _ lib Hm e Hs Hr) in Hc.
        discriminate Hc. }
      rewrite (run_relays env prog _ _ _ _ lib Hm r Hs Hr) in Hc.
      right. exists host, user, password, command, r.
      split; [reflexivity | split; [exists lib; auto | exact Hc]].
  - intros [Hn | [[H4 [e [Hm Hi]]] | (host & user & password & command & r
                                       & -> & Hex & Hc)]].
    + now rewrite (run_usage env prog args Hn).
    + destruct (four_args args H4) as (host & user & password & command & ->).
      now rewrite (run_not_installed env prog _ _ _ _ e Hm Hi).
    + rewrite (run_executed _ prog _ _ _ _ _ Hex). exact Hc.
Qed.

(** The call that fills standard output is the relay: whenever any byte
    reaches [sys.stdout.buffer], the remote command executed and those
    bytes are its captured [std_out]. *)
Theorem stdout_is_remote_output_only env argv :
  stdout_bytes (trace (winrm_cmd env argv)) <> [] ->
  exists prog host user password command r,
    argv = [prog; host; user; password; command] /\
    executed env host user password command r /\
    stdout_bytes (trace (winrm_cmd env argv)) = std_out r.
Proof.
  intros Hne.
  destruct (winrm_cmd_path env argv) as
    [ | prog args Hn
      | prog host user password command e Hm Hi
      | prog host user password command e Hm Hi
      | prog host user password command lib e Hm Hs
      | prog host user password command lib e Hm Hs Hr
      | prog host user password command lib r Hm Hs Hr ];
    cbn [trace] in *; try (exfalso; apply Hne; reflexivity).
  exists prog, host, user, password, command, r.
  split; [reflexivity | split; [exists lib; auto |]].
  change (stdout_bytes (relay r) = std_out r). apply stdout_bytes_relay.
Qed.

Lemma stdout_is_remote_output_only_witness :
  stdout_bytes (trace (winrm_cmd (Samples.answering Samples.hello)
                                 Samples.argv4)) <> [] /\
  exists prog host user password command r,
    Samples.argv4 = [prog; host; user; password; command] /\
    executed (Samples.answering Samples.hello) host user password command r /\
    stdout_bytes (trace (winrm_cmd (Samples.answering Samples.hello)
                                   Samples.argv4)) = std_out r.
Proof.
  assert (H : stdout_bytes (trace (winrm_cmd (Samples.answering Samples.hello)
                                             Samples.argv4)) <> [])
    by (vm_compute; discriminate).
  split; [exact H |].
  exact (stdout_is_remote_output_only _ _ H).
Defined.

Lemma calls_relay (r : Response) :
  calls is_import (relay r) = 0%nat /\
  calls is_session_new (relay r) = 0%nat /\
  calls is_run_ps (relay r) = 0%nat.
Proof. unfold relay. destruct (std_out r), (std_err r); repeat split. Qed.

Lemma calls_app (p : Event -> bool) (t1 t2 : list Event) :
  calls p (t1 ++ t2) = (calls p t1 + calls p t2)%nat.
Proof. unfold calls. now rewrite filter_app, length_app. Qed.

(** No retry, no second session: in every run [winrm] is imported at most
    once, at most one session is built and [run_ps] is called at most once;
    there is no [run_ps] call without a session and no session without the
    import. *)
Theorem at_most_one_call_each env argv :
  (calls is_import (trace (winrm_cmd env argv)) <= 1)%nat /\
  (calls is_run_ps (trace (winrm_cmd env argv)) <=
   calls is_session_new (trace (winrm_cmd env argv)))%nat /\
  (calls is_session_new (trace (winrm_cmd env argv)) <=
   calls is_import (trace (winrm_cmd env argv)))%nat.
Proof.
  destruct (winrm_cmd_path env argv) as
    [ | prog args Hn
      | prog host user password command e Hm Hi
      | prog host user password command e Hm Hi
      | prog host user password command lib e Hm Hs
      | prog host user password command lib e Hm Hs Hr
      | prog host user password command lib r Hm Hs Hr ];
    cbn [trace]; try (cbn; lia).
  rewrite !calls_app.
  destruct (calls_relay r) as (-> & -> & ->). cbn. lia.
Qed.

(** The calls come in one order.  A session is built only after the
    import, [run_ps] is called only on the session built before it, and
    nothing is written to either buffer before [run_ps] was called. *)
Theorem calls_in_order env argv before ev after :
  trace (winrm_cmd env argv) = (before ++ ev :: after)%list ->
  (forall s, ev = SessionNew s -> In ImportWinrm before) /\
  (forall s c, ev = RunPs s c -> In (SessionNew s) before) /\
  (forall d, ev = StdoutBufferWrite d \/ ev = StderrBufferWrite d ->
             exists s c, In (RunPs s c) before).
Proof.
  intros Ht.
  destruct (winrm_cmd_path env argv) as
    [ | prog args Hn
      | prog host user password command e Hm Hi
      | prog host user password command e Hm Hi
      | prog host user password command lib e Hm Hs
      | prog host user password command lib e Hm Hs Hr
      | prog host user password command lib r Hm Hs Hr ];
    cbn [trace] in Ht;
    try (unfold relay in Ht;
         destruct (std_out r) as [|o os], (std_err r) as [|b bs]);
    cbn in Ht; split_at_event Ht before;
    (split;
     [ intros s E; first [discriminate E | cbn; auto]
     | split;
       [ intros s c E;
         first [discriminate E | injection E as <- <-; cbn; auto]
       | intros d [E | E];
         first [ discriminate E
               | do 2 eexists; cbn; right; right; left; reflexivity ] ] ]).
Qed.

Lemma calls_in_order_witness :
  trace (winrm_cmd (Samples.answering Samples.hello) Samples.argv4) =
    ([ImportWinrm;
      SessionNew (script_session "10.0.0.7" "admin" "hunter2");
      RunPs (script_session "10.0.0.7" "admin" "hunter2") "hostname"]
     ++ StdoutBufferWrite [x68; x69; x0d; x0a; x00; xff] :: [])%list /\
  exists s c,
    In (RunPs s c)
       [ImportWinrm;
        SessionNew (script_session "10.0.0.7" "admin" "hunter2");
        RunPs (script_session "10.0.0.7" "admin" "hunter2") "hostname"].
Proof.
  assert (H : trace (winrm_cmd (Samples.answering Samples.hello)
                               Samples.argv4) =
              ([ImportWinrm;
                SessionNew (script_session "10.0.0.7" "admin" "hunter2");
                RunPs (script_session "10.0.0.7" "admin" "hunter2")
                      "hostname"]
               ++ StdoutBufferWrite [x68; x69; x0d; x0a; x00; xff] :: [])%list)
    by reflexivity.
  split; [exact H |].
  exact (proj2 (proj2 (calls_in_order _ _ _ _ _ H)) _ (or_introl eq_refl)).
Defined.

(** ** The script's own two messages *)

Lemma in_own_text (s : string) (t : list Event) :
  In (StderrText s) t <-> In s (own_text t).
Proof.
  induction t as [|ev t IH]; [reflexivity |].
  destruct ev; cbn; rewrite <- ?IH;
    intuition (try discriminate; try congruence).
Qed.

Lemma own_text_five env prog host user password command :
  own_text (trace (winrm_cmd env [prog; host; user; password; command])) = [] \/
  (own_text (trace (winrm_cmd env [prog; host; user; password; command])) =
     [not_installed ++ newline] /\
   exists e, transport_unavailable env e).
Proof.
  destruct (winrm_module env) as [e | lib] eqn:Hm.
  - destruct (isinstance_ImportError e) eqn:Hi.
    + right. rewrite (run_not_installed env prog _ _ _ _ e Hm Hi).
      split; [reflexivity |]. exists e. now split.
    + left. now rewrite (run_import_raises env prog _ _ _ _ e Hm Hi).
  - left. now apply own_text_with_package with (lib := lib).
Qed.

Lemma usage_is_not_remediation (prog : string) :
  usage prog ++ newline <> not_installed ++ newline.
Proof. cbn. discriminate. Qed.

(** The remediation line is printed exactly when the command line has five
    entries and [import winrm] fails with an [ImportError]: never on a
    usage error, never for another exception of the import, never once the
    package is there. *)
Theorem remediation_iff_import_error env argv :
  In (StderrText (not_installed ++ newline)) (trace (winrm_cmd env argv)) <->
  List.length argv = 5%nat /\ exists e, transport_unavailable env e.
Proof.
  rewrite in_own_text. split.
  - destruct argv as [|prog args]; [intros [] |].
    destruct (Nat.eq_dec (List.length args) 4) as [H4 | H4].
    + destruct (four_args args H4) as (host & user & password & command & ->).
      destruct (own_text_five env prog host user password command)
        as [-> | [_ He]]; [intros [] | auto].
    + rewrite (run_usage env prog args H4). cbn.
      intros [E | []]. now apply usage_is_not_remediation in E.
  - intros [H5 [e [Hm Hi]]].
    destruct argv as [|prog args]; [discriminate H5 |].
    injection H5 as H4.
    destruct (four_args args H4) as (host & user & password & command & ->).
    rewrite (run_not_installed env prog _ _ _ _ e Hm Hi). cbn. auto.
Qed.

(** The usage line is printed exactly when the number of arguments is not
    four; with four arguments it never is, whatever they contain. *)
Theorem usage_iff_wrong_count env prog args :
  In (StderrText (usage prog ++ newline))
     (trace (winrm_cmd env (prog :: args))) <->
  List.length args <> 4%nat.
Proof.
  rewrite in_own_text. split.
  - intros Hin H4.
    destruct (four_args args H4) as (host & user & password & command & ->).
    destruct (own_text_five env prog host user password command)
      as [E | [E _]]; rewrite E in Hin.
    + destruct Hin.
    + destruct Hin as [E' | []].
      now apply (usage_is_not_remediation prog).
  - intros H4. rewrite (run_usage env prog args H4). cbn. auto.
Qed.

(** ** The session is a faithful copy of the arguments *)

Lemma length_append (a b : string) :
  String.length (a ++ b) = (String.length a + String.length b)%nat.
Proof. induction a as [|c a IH]; simpl; [reflexivity | now rewrite IH]. Qed.

Lemma append_cancel_r (s a b : string) : a ++ s = b ++ s -> a = b.
Proof.
  revert b. induction a as [|c a IH]; intros [|d b] H; simpl in H.
  - reflexivity.
  - apply (f_equal String.length) in H. simpl in H.
    rewrite length_append in H. lia.
  - apply (f_equal String.length) in H. simpl in H.
    rewrite length_append in H. lia.
  - injection H as -> H. f_equal. now apply IH.
Qed.

(** The host is put into the target unchanged and nothing is dropped from
    the credentials: two command lines ask for the same session only if
    they name the same host, user and password. *)
Theorem script_session_injective h u p h' u' p' :
  script_session h u p = script_session h' u' p' ->
  h = h' /\ u = u' /\ p = p'.
Proof.
  unfold script_session. intros H.
  injection H as Ht Hu Hp. repeat split; try assumption.
  apply (append_cancel_r ":5985/wsman").
  cbn in Ht. exact Ht.
Qed.

Lemma script_session_injective_witness :
  script_session "10.0.0.7" "admin" "hunter2" =
    script_session "10.0.0.7" "admin" "hunter2" /\
  "10.0.0.7" = "10.0.0.7" /\ "admin" = "admin" /\ "hunter2" = "hunter2".
Proof.
  split; [reflexivity |].
  exact (script_session_injective _ _ _ _ _ _ eq_refl).
Defined.

(** ** One thing at most on the error stream *)

(** The usage line, the remediation line, the relayed remote error output
    and a traceback exclude one another: the error stream of a run carries
    at most one of them. *)
Theorem stderr_carries_at_most_one_thing env argv :
  (List.length (stderr_of (winrm_cmd env argv)) <= 1)%nat.
Proof.
  destruct (winrm_cmd_path env argv) as
    [ | prog args Hn
      | prog host user password command e Hm Hi
      | prog host user password command e Hm Hi
      | prog host user password command lib e Hm Hs
      | prog host user password command lib e Hm Hs Hr
      | prog host user password command lib r Hm Hs Hr ];
    unfold stderr_of; cbn [trace ending]; try (cbn; lia).
  unfold relay. destruct (std_out r), (std_err r); cbn; lia.
Qed.
